(** * Record feedback task: pagination, filters and the questions form

    A shallow embedding of the two Vue components of
    [RecordFeedbackTaskAndQuestionnaire.content.vue]:

    - [RecordFeedbackTaskAndQuestionnaireComponent], the parent, which owns
      the current page, the status and search filters and the [fetching]
      guard, and
    - [QuestionsFormComponent], the form, which owns [isFormTouched].

    Conventions.

    - A JavaScript number is an IEEE 754 binary64 value: [float].
    - A value that is [null] or a string is an [option string]; a value
      that is [null] or a number is an [option number].
    - A string denotes the JavaScript string whose code units are its
      characters.
    - [this.$route.query] is a finite map from keys to [null] or a string;
      a key that is not in the map reads as [undefined].  The router is
      not part of the components: the three watchers of the parent, which
      only push the page and the filters to it, are left out, and the
      route changes when the environment says so.
    - An [async] method runs up to its next [await] of a call of the view
      model, where it is suspended; it is resumed when that promise
      resolves.  [this.$fetch()] is the call of the [fetch] hook, and what
      follows [await this.$fetch()] runs as the hook ends.
    - Calls that leave the component (the view model, [Notification],
      [$root.$emit], [$emit]) are appended to an effect log, oldest first. *)

From Stdlib Require Import Ascii ZArith Floats.
From stdpp Require Import base option list gmap strings.

Open Scope string_scope.

(** ** JavaScript values *)

Definition number : Type := float.

Definition one : number := 1%float.

(** [ToNumber] of a page that is [null] or a number: [null] is [+0]. *)
Definition page_number (page : option number) : number :=
  match page with
  | Some x => x
  | None => 0%float
  end.

(** [page !== 1] for a page that is [null] or a number. *)
Definition strict_neq_one (page : option number) : bool :=
  match page with
  | Some x => negb (PrimFloat.eqb x one)
  | None => true
  end.

(** [a === b] for [a] that is [null] or a string and a string [b]. *)
Definition strict_eq_string (a : option string) (b : string) : bool :=
  match a with
  | Some s => String.eqb s b
  | None => false
  end.

(** [`${v}`] for [v] that is [null] or a string. *)
Definition template (v : option string) : string :=
  match v with
  | Some s => s
  | None => "null"
  end.

(** Truthiness of [v?.length] for [v] that is nullish or a string. *)
Definition has_length (v : option string) : bool :=
  match v with
  | Some s => negb (String.eqb s "")
  | None => false
  end.

(** ** What the components import

    [Runtime] gathers the language and framework functions the components
    call; [ViewModel] the composable [useRecordFeedbackTaskViewModel] and
    the constant of [record.queries]; [FormModel] the record entity and the
    composable [useQuestionFormViewModel]. *)

Class Runtime := {
  (** [+s] for a string [s]. *)
  StringToNumber : string -> number;
  (** [s.toLowerCase()]. *)
  toLowerCase : string -> string;
  (** [this.$t(key)]. *)
  translate : string -> string
}.

Class ViewModel := {
  (** The reactive [records] state. *)
  Records : Type;
  (** [records.existsRecordOn(page)]. *)
  existsRecordOn : Records -> option number -> bool;
  (** [records.total]. *)
  total : Records -> number;
  (** The store after [clearRecords()]. *)
  clearRecords : Records -> Records;
  (** [RECORD_STATUS.PENDING]. *)
  RECORD_STATUS_PENDING : string
}.

Class FormModel := {
  FeedbackRecord : Type;
  (** [record.isSubmitted]. *)
  isSubmitted : FeedbackRecord -> bool;
  (** [record.isModified]. *)
  isModified : FeedbackRecord -> bool;
  (** [record.questionAreCompletedCorrectly()]. *)
  questionAreCompletedCorrectly : FeedbackRecord -> bool;
  (** The record after [record.initialize()]. *)
  initialize : FeedbackRecord -> FeedbackRecord
}.

(** ** Notifications *)

Inductive NotificationType : Type :=
  | warning
  | info.

(** The closures a notification carries. *)
Inductive Callback : Type :=
  | LocalApplyStatusFilter (newStatus : string)
  | LocalApplySearchFilter (newSearchValue : option string)
  | LocalEmitResetStatusFilter
  | LocalEmitResetSearchFilter.

Record NotifyParams : Type := mkNotifyParams {
  message : string;
  buttonText : option string;
  numberOfChars : nat;
  type : NotificationType;
  onClick : option Callback;
  onClose : option Callback
}.

(** ** The parent component *)

Section ParentComponent.

Context {RT : Runtime} {VM : ViewModel}.

Inductive Effect : Type :=
  | LoadMetrics (datasetId : string)
  | ClearRecords
  | LoadRecords (datasetId : string) (page : option number)
      (status search : option string)
  | NotificationNotify (params : NotifyParams)
  | NotificationClear
  | RootEmitTotalRecords (value : option number)
  | RootEmitResetStatusFilter
  | RootEmitResetSearchFilter.

Record Component : Type := mkComponent {
  datasetId : string;
  questionFormTouched : bool;
  recordStatusToFilterWith : option string;
  searchTextToFilterWith : option string;
  currentPage : option number;
  fetching : bool;
  (** [this.records] *)
  records : Records;
  (** [this.$route.query] *)
  query : gmap string (option string);
  effects : list Effect
}.

Definition set_questionFormTouched (v : bool) (c : Component) : Component :=
  mkComponent (datasetId c) v (recordStatusToFilterWith c)
    (searchTextToFilterWith c) (currentPage c) (fetching c) (records c)
    (query c) (effects c).

Definition set_recordStatusToFilterWith (v : option string) (c : Component)
  : Component :=
  mkComponent (datasetId c) (questionFormTouched c) v
    (searchTextToFilterWith c) (currentPage c) (fetching c) (records c)
    (query c) (effects c).

Definition set_searchTextToFilterWith (v : option string) (c : Component)
  : Component :=
  mkComponent (datasetId c) (questionFormTouched c)
    (recordStatusToFilterWith c) v (currentPage c) (fetching c) (records c)
    (query c) (effects c).

Definition set_currentPage (v : option number) (c : Component) : Component :=
  mkComponent (datasetId c) (questionFormTouched c)
    (recordStatusToFilterWith c) (searchTextToFilterWith c) v (fetching c)
    (records c) (query c) (effects c).

Definition set_fetching (v : bool) (c : Component) : Component :=
  mkComponent (datasetId c) (questionFormTouched c)
    (recordStatusToFilterWith c) (searchTextToFilterWith c) (currentPage c) v
    (records c) (query c) (effects c).

Definition set_records (v : Records) (c : Component) : Component :=
  mkComponent (datasetId c) (questionFormTouched c)
    (recordStatusToFilterWith c) (searchTextToFilterWith c) (currentPage c)
    (fetching c) v (query c) (effects c).

Definition set_query (v : gmap string (option string)) (c : Component)
  : Component :=
  mkComponent (datasetId c) (questionFormTouched c)
    (recordStatusToFilterWith c) (searchTextToFilterWith c) (currentPage c)
    (fetching c) (records c) v (effects c).

Definition perform (e : Effect) (c : Component) : Component :=
  mkComponent (datasetId c) (questionFormTouched c)
    (recordStatusToFilterWith c) (searchTextToFilterWith c) (currentPage c)
    (fetching c) (records c) (query c) (effects c ++ [e]).

(** [data()], for a component mounted on dataset [id] while the store
    holds [r] and the route query is [q]. *)
Definition data (id : string) (r : Records) (q : gmap string (option string))
  : Component :=
  mkComponent id false None None None false r q [].

(** *** Computed properties *)

Definition noMoreDataMessage (c : Component) : string :=
  "You've reached the end of the data for the "
    ++ template (recordStatusToFilterWith c) ++ " queue.".

(** [a ?? b] on a query entry: [undefined] and [null] give [b]. *)
Definition nullish_or (entry : option (option string)) (b : string) : string :=
  match entry with
  | Some (Some s) => s
  | _ => b
  end.

Definition statusFilterFromQuery (c : Component) : string :=
  nullish_or (query c !! "_status") (toLowerCase RECORD_STATUS_PENDING).

Definition searchFilterFromQuery (c : Component) : string :=
  nullish_or (query c !! "_search") "".

Definition pageFromQuery (c : Component) : number :=
  match query c !! "_page" with
  | Some (Some _page) => StringToNumber _page
  | _ => one
  end.

(** *** Asynchronous methods *)

(** Who awaits [this.$fetch()]. *)
Inductive Awaiter : Type :=
  | FetchHook
  | ApplyStatusFilter
  | ApplySearchFilter (searchFilter : option string).

(** A method suspended at an [await this.loadRecords(...)]. *)
Inductive Suspended : Type :=
  | FetchFirstLoad (a : Awaiter)
  | FetchSecondLoad (a : Awaiter)
  | SetCurrentPageLoad (newPage : number).

Inductive Outcome : Type :=
  | Returned (c : Component)
  | Awaiting (c : Component) (k : Suspended).

Definition call_clearRecords (c : Component) : Component :=
  perform ClearRecords (set_records (clearRecords (records c)) c).

Definition call_loadRecords (page : option number) (c : Component)
  : Component :=
  perform
    (LoadRecords (datasetId c) page (recordStatusToFilterWith c)
       (searchTextToFilterWith c)) c.

Definition checkAndEmitTotalRecords (searchFilter : option string)
    (value : number) (c : Component) : Component :=
  if has_length searchFilter
  then perform (RootEmitTotalRecords (Some value)) c
  else perform (RootEmitTotalRecords None) c.

(** The statements after [await this.$fetch()] in the awaiting method. *)
Definition after_fetch (a : Awaiter) (c : Component) : Component :=
  match a with
  | FetchHook => c
  | ApplyStatusFilter =>
      checkAndEmitTotalRecords (searchTextToFilterWith c) (total (records c)) c
  | ApplySearchFilter searchFilter =>
      checkAndEmitTotalRecords searchFilter (total (records c)) c
  end.

Definition fetch (a : Awaiter) (c : Component) : Outcome :=
  if fetching c then Returned (after_fetch a c)
  else
    let c := set_fetching true c in
    let c := call_clearRecords c in
    Awaiting (call_loadRecords (currentPage c) c) (FetchFirstLoad a).

Definition fetch_after_first_load (a : Awaiter) (c : Component) : Outcome :=
  let isRecordExistForCurrentPage :=
    existsRecordOn (records c) (currentPage c) in
  if negb isRecordExistForCurrentPage && strict_neq_one (currentPage c)
  then
    let c := set_currentPage (Some one) c in
    Awaiting (call_loadRecords (currentPage c) c) (FetchSecondLoad a)
  else Returned (after_fetch a (set_fetching false c)).

Definition fetch_after_second_load (a : Awaiter) (c : Component) : Outcome :=
  Returned (after_fetch a (set_fetching false c)).

Definition applyStatusFilter (status : string) (c : Component) : Outcome :=
  let c := set_currentPage (Some one) c in
  let c := set_recordStatusToFilterWith (Some status) c in
  fetch ApplyStatusFilter c.

Definition applySearchFilter (searchFilter : option string) (c : Component)
  : Outcome :=
  let c := set_currentPage (Some one) c in
  let c := set_searchTextToFilterWith searchFilter c in
  fetch (ApplySearchFilter searchFilter) c.

Definition emitResetStatusFilter (c : Component) : Component :=
  perform RootEmitResetStatusFilter c.

Definition emitResetSearchFilter (c : Component) : Component :=
  perform RootEmitResetSearchFilter c.

Definition unsavedSearchWarning (newSearchValue : option string)
  : NotifyParams :=
  mkNotifyParams (translate "changes_no_submit")
    (Some (translate "button.ignore_and_continue")) 500 warning
    (Some (LocalApplySearchFilter newSearchValue))
    (Some LocalEmitResetSearchFilter).

Definition onSearchFilterChanged (newSearchValue : option string)
    (c : Component) : Outcome :=
  let differs :=
    negb (strict_eq_string newSearchValue (searchFilterFromQuery c)) in
  if questionFormTouched c && differs
  then Returned (perform (NotificationNotify (unsavedSearchWarning newSearchValue)) c)
  else if differs then applySearchFilter newSearchValue c
  else Returned c.

Definition unsavedStatusWarning (newStatus : string) : NotifyParams :=
  mkNotifyParams (translate "changes_no_submit")
    (Some (translate "button.ignore_and_continue")) 500 warning
    (Some (LocalApplyStatusFilter newStatus))
    (Some LocalEmitResetStatusFilter).

Definition onStatusFilterChanged (newStatus : string) (c : Component)
  : Outcome :=
  if strict_eq_string (recordStatusToFilterWith c) newStatus then Returned c
  else if questionFormTouched c
  then Returned (perform (NotificationNotify (unsavedStatusWarning newStatus)) c)
  else applyStatusFilter newStatus c.

Definition onQuestionFormTouched (isTouched : bool) (c : Component)
  : Component :=
  set_questionFormTouched isTouched c.

Definition noMoreDataNotice (c : Component) : NotifyParams :=
  mkNotifyParams (noMoreDataMessage c) None
    (String.length (noMoreDataMessage c)) info None None.

(** [setCurrentPage] from the test of [isNextRecordExist] to its end. *)
Definition setCurrentPage_finish (newPage : number) (isNextRecordExist : bool)
    (c : Component) : Component :=
  let c :=
    if isNextRecordExist then set_currentPage (Some newPage) c
    else if PrimFloat.ltb (page_number (currentPage c)) newPage
    then perform (NotificationNotify (noMoreDataNotice c)) c
    else c in
  set_fetching false c.

Definition setCurrentPage (newPage : number) (c : Component) : Outcome :=
  if fetching c then Returned c
  else
    let c := set_fetching true c in
    let isNextRecordExist := existsRecordOn (records c) (Some newPage) in
    if negb isNextRecordExist
    then Awaiting (call_loadRecords (Some newPage) c) (SetCurrentPageLoad newPage)
    else Returned (setCurrentPage_finish newPage isNextRecordExist c).

Definition setCurrentPage_after_load (newPage : number) (c : Component)
  : Outcome :=
  let isNextRecordExist := existsRecordOn (records c) (Some newPage) in
  Returned (setCurrentPage_finish newPage isNextRecordExist c).

Definition goToNext (c : Component) : Outcome :=
  setCurrentPage (PrimFloat.add (page_number (currentPage c)) one) c.

Definition goToPrev (c : Component) : Outcome :=
  setCurrentPage (PrimFloat.sub (page_number (currentPage c)) one) c.

(** *** Lifecycle *)

Definition created (c : Component) : Component :=
  let c := set_recordStatusToFilterWith (Some (statusFilterFromQuery c)) c in
  let c := set_searchTextToFilterWith (Some (searchFilterFromQuery c)) c in
  let c := set_currentPage (Some (pageFromQuery c)) c in
  perform (LoadMetrics (datasetId c)) c.

Definition beforeDestroy (c : Component) : Component :=
  perform NotificationClear c.

(** *** Resuming and running *)

(** The promise awaited by [k] resolves, the store now holding [loaded]. *)
Definition resume (k : Suspended) (loaded : Records) (c : Component)
  : Outcome :=
  let c := set_records loaded c in
  match k with
  | FetchFirstLoad a => fetch_after_first_load a c
  | FetchSecondLoad a => fetch_after_second_load a c
  | SetCurrentPageLoad newPage => setCurrentPage_after_load newPage c
  end.

(** A method run to its end with nothing else in between: each
    [loadRecords] it awaits resolves with the next store of [loads]. *)
Fixpoint complete (loads : list Records) (o : Outcome) : option Component :=
  match o with
  | Returned c => Some c
  | Awaiting c k =>
      match loads with
      | [] => None
      | loaded :: loads => complete loads (resume k loaded c)
      end
  end.

Definition run_callback (cb : Callback) (c : Component) : Outcome :=
  match cb with
  | LocalApplyStatusFilter newStatus => applyStatusFilter newStatus c
  | LocalApplySearchFilter newSearchValue =>
      applySearchFilter newSearchValue c
  | LocalEmitResetStatusFilter => Returned (emitResetStatusFilter c)
  | LocalEmitResetSearchFilter => Returned (emitResetSearchFilter c)
  end.

End ParentComponent.

(** ** The parent component among its events

    Between two awaits of a method anything may happen: a [System] is
    the component together with the methods that are suspended, and an
    [Event] is one thing that happens to it. *)

Section ParentSystem.

Context {RT : Runtime} {VM : ViewModel}.

Record System : Type := mkSystem {
  component : Component;
  suspended : list Suspended
}.

Inductive Event : Type :=
  (** the framework calls the [fetch] hook *)
  | FetchCalled
  (** [$root] events registered in [mounted] *)
  | GoToNextPage
  | GoToPrevPage
  | StatusFilterChanged (newStatus : string)
  | SearchFilterChanged (newSearchValue : option string)
  (** events of the questions form *)
  | OnSubmitResponses
  | OnDiscardResponses
  | OnQuestionFormTouched (isTouched : bool)
  (** the button, or the close mark, of the notification dispatched as
      the [i]-th effect *)
  | NotificationClicked (i : nat)
  | NotificationClosed (i : nat)
  (** the [loadRecords] awaited by the [i]-th suspended method resolves *)
  | RecordsLoaded (i : nat) (loaded : Records)
  (** the router moves to another query *)
  | RouteChanged (q : gmap string (option string)).

Definition settle (o : Outcome) (waiting : list Suspended) : System :=
  match o with
  | Returned c => mkSystem c waiting
  | Awaiting c k => mkSystem c (waiting ++ [k])
  end.

Definition notification_callback (pick : NotifyParams -> option Callback)
    (i : nat) (c : Component) : option Callback :=
  match effects c !! i with
  | Some (NotificationNotify params) => pick params
  | _ => None
  end.

(** What the component does on an event that calls one of its methods. *)
Definition react (e : Event) (c : Component) : Outcome :=
  match e with
  | FetchCalled => fetch FetchHook c
  | GoToNextPage => goToNext c
  | GoToPrevPage => goToPrev c
  | StatusFilterChanged newStatus => onStatusFilterChanged newStatus c
  | SearchFilterChanged newSearchValue =>
      onSearchFilterChanged newSearchValue c
  | OnSubmitResponses => goToNext c
  | OnDiscardResponses => goToNext c
  | OnQuestionFormTouched isTouched =>
      Returned (onQuestionFormTouched isTouched c)
  | NotificationClicked i =>
      match notification_callback onClick i c with
      | Some cb => run_callback cb c
      | None => Returned c
      end
  | NotificationClosed i =>
      match notification_callback onClose i c with
      | Some cb => run_callback cb c
      | None => Returned c
      end
  | RecordsLoaded _ _ => Returned c
  | RouteChanged q => Returned (set_query q c)
  end.

Definition step (s : System) (e : Event) : System :=
  match e with
  | RecordsLoaded i loaded =>
      match suspended s !! i with
      | Some k =>
          settle (resume k loaded (component s)) (delete i (suspended s))
      | None => s
      end
  | _ => settle (react e (component s)) (suspended s)
  end.

Definition steps (s : System) (events : list Event) : System :=
  fold_left step events s.

(** The component once created, nothing suspended yet. *)
Definition boot (id : string) (r : Records) (q : gmap string (option string))
  : System :=
  mkSystem (created (data id r q)) [].

(** At most one method is suspended, exactly when [fetching] is set; a
    [fetch] in its second load has put the page back to 1. *)
Definition guarded (s : System) : Prop :=
  match suspended s with
  | [] => fetching (component s) = false
  | [k] =>
      fetching (component s) = true /\
      match k with
      | FetchSecondLoad _ => currentPage (component s) = Some one
      | _ => True
      end
  | _ => False
  end.

(** The same of an outcome reached with nothing else suspended. *)
Definition settled_guarded (o : Outcome) : Prop :=
  match o with
  | Returned c => fetching c = false
  | Awaiting c k =>
      fetching c = true /\
      match k with
      | FetchSecondLoad _ => currentPage c = Some one
      | _ => True
      end
  end.

(** The outcome of a method called on [c] while another is suspended:
    it has returned, [fetching] is still set, and a page put back to 1
    is still 1. *)
Definition stays_busy (c : Component) (o : Outcome) : Prop :=
  match o with
  | Returned c' =>
      fetching c' = true /\
      (currentPage c = Some one -> currentPage c' = Some one)
  | Awaiting _ _ => False
  end.

End ParentSystem.

(** ** The questions form *)

Record KeyboardEvent : Type := mkKeyboardEvent {
  code : string;
  shiftKey : bool;
  ctrlKey : bool;
  metaKey : bool
}.

Section QuestionsForm.

Context {FM : FormModel}.

Inductive FormEffect : Type :=
  (** calls of the view model *)
  | SaveDraft (record : FeedbackRecord)
  | SaveDraftImmediately (record : FeedbackRecord)
  | Submit (record : FeedbackRecord)
  | Discard (record : FeedbackRecord)
  | Clear (record : FeedbackRecord)
  (** [this.$emit] *)
  | EmitOnSubmitResponses
  | EmitOnDiscardResponses
  | EmitOnQuestionFormTouched (isFormTouched : bool)
  (** [this.$root.$emit("are-responses-untouched", _)] *)
  | RootEmitAreResponsesUntouched (untouched : bool)
  (** on the keyboard event *)
  | PreventDefault
  | StopPropagation.

Record QuestionsForm : Type := mkQuestionsForm {
  record : FeedbackRecord;
  isFormTouched : bool;
  formEffects : list FormEffect
}.

Definition set_record (v : FeedbackRecord) (f : QuestionsForm)
  : QuestionsForm :=
  mkQuestionsForm v (isFormTouched f) (formEffects f).

Definition set_isFormTouched (v : bool) (f : QuestionsForm) : QuestionsForm :=
  mkQuestionsForm (record f) v (formEffects f).

Definition form_perform (e : FormEffect) (f : QuestionsForm)
  : QuestionsForm :=
  mkQuestionsForm (record f) (isFormTouched f) (formEffects f ++ [e]).

(** [data()] of the form given the [record] prop. *)
Definition form_data (r : FeedbackRecord) : QuestionsForm :=
  mkQuestionsForm r false [].

(** *** Computed properties *)

Definition computed_questionAreCompletedCorrectly (f : QuestionsForm) : bool :=
  questionAreCompletedCorrectly (record f).

Definition isSubmitButtonDisabled (f : QuestionsForm) : bool :=
  if isSubmitted (record f)
  then negb (isFormTouched f) || negb (computed_questionAreCompletedCorrectly f)
  else negb (computed_questionAreCompletedCorrectly f).

(** *** Methods *)

(** A method suspended at the [await] of a view model call. *)
Inductive FormSuspended : Type :=
  | AwaitDiscard
  | AwaitSubmit
  | AwaitClear
  | AwaitSaveDraftImmediately.

Inductive FormOutcome : Type :=
  | FormReturned (f : QuestionsForm)
  | FormAwaiting (f : QuestionsForm) (k : FormSuspended).

Definition emitIsQuestionsFormTouched (isFormTouched : bool)
    (f : QuestionsForm) : QuestionsForm :=
  let f := form_perform (EmitOnQuestionFormTouched isFormTouched) f in
  form_perform (RootEmitAreResponsesUntouched (negb isFormTouched)) f.

Definition onDiscard (f : QuestionsForm) : FormOutcome :=
  FormAwaiting (form_perform (Discard (record f)) f) AwaitDiscard.

Definition onSubmit (f : QuestionsForm) : FormOutcome :=
  if negb (computed_questionAreCompletedCorrectly f) then FormReturned f
  else FormAwaiting (form_perform (Submit (record f)) f) AwaitSubmit.

Definition onClear (f : QuestionsForm) : FormOutcome :=
  FormAwaiting (form_perform (Clear (record f)) f) AwaitClear.

Definition onSaveDraftImmediately (f : QuestionsForm) : FormOutcome :=
  FormAwaiting (form_perform (SaveDraftImmediately (record f)) f)
    AwaitSaveDraftImmediately.

(** The awaited call of the view model resolves. *)
Definition form_resume (k : FormSuspended) (f : QuestionsForm)
  : QuestionsForm :=
  match k with
  | AwaitDiscard => form_perform EmitOnDiscardResponses f
  | AwaitSubmit => form_perform EmitOnSubmitResponses f
  | AwaitClear => f
  | AwaitSaveDraftImmediately => f
  end.

Definition onPressKeyboardShortCut (event : KeyboardEvent) (f : QuestionsForm)
  : FormOutcome :=
  if String.eqb (code event) "KeyS" then
    if ctrlKey event || metaKey event then
      let f := form_perform PreventDefault f in
      let f := form_perform StopPropagation f in
      onSaveDraftImmediately f
    else FormReturned f
  else if String.eqb (code event) "Enter" then
    if shiftKey event then onSubmit f else FormReturned f
  else if String.eqb (code event) "Space" then
    if shiftKey event then onClear f else FormReturned f
  else if String.eqb (code event) "Backspace" then
    if shiftKey event then onDiscard f else FormReturned f
  else FormReturned f.

(** *** Watchers *)

Definition watch_isFormTouched (isFormTouched : bool) (f : QuestionsForm)
  : QuestionsForm :=
  if isSubmitted (record f) then emitIsQuestionsFormTouched isFormTouched f
  else f.

(** The handler of the deep, immediate watcher of [record]. *)
Definition watch_record (f : QuestionsForm) : QuestionsForm :=
  let f :=
    if isModified (record f) then form_perform (SaveDraft (record f)) f
    else f in
  set_isFormTouched (isModified (record f)) f.

(** A watcher of a data property runs when the property has changed:
    [was] is the value the watcher of [isFormTouched] last saw. *)
Definition flush_isFormTouched (was : bool) (f : QuestionsForm)
  : QuestionsForm :=
  if Bool.eqb (isFormTouched f) was then f
  else watch_isFormTouched (isFormTouched f) f.

(** The record has changed into [r]: its handler runs, then the watcher
    of [isFormTouched]. *)
Definition record_changed (r : FeedbackRecord) (f : QuestionsForm)
  : QuestionsForm :=
  flush_isFormTouched (isFormTouched f) (watch_record (set_record r f)).

(** *** Lifecycle *)

Definition form_created (f : QuestionsForm) : QuestionsForm :=
  set_record (initialize (record f)) f.

(** The form set up on record [r]: the immediate run of the [record]
    handler, the [created] hook, then the watcher of [isFormTouched]. *)
Definition form_setup (r : FeedbackRecord) : QuestionsForm :=
  let f := form_data r in
  flush_isFormTouched (isFormTouched f) (form_created (watch_record f)).

Definition destroyed (f : QuestionsForm) : QuestionsForm :=
  emitIsQuestionsFormTouched false f.

(** *** The form among its events *)

Record FormSystem : Type := mkFormSystem {
  form : QuestionsForm;
  formSuspended : list FormSuspended
}.

Inductive FormEvent : Type :=
  (** a deep change of the record *)
  | RecordChanged (r : FeedbackRecord)
  (** [keydown] on the document *)
  | KeyDown (event : KeyboardEvent)
  (** the form is submitted *)
  | SubmitForm
  (** the Discard and Clear buttons *)
  | ClickDiscard
  | ClickClear
  (** the call awaited by the [i]-th suspended method resolves *)
  | CallResolved (i : nat).

Definition form_settle (o : FormOutcome) (waiting : list FormSuspended)
  : FormSystem :=
  match o with
  | FormReturned f => mkFormSystem f waiting
  | FormAwaiting f k => mkFormSystem f (waiting ++ [k])
  end.

Definition form_step (s : FormSystem) (e : FormEvent) : FormSystem :=
  let f := form s in
  match e with
  | RecordChanged r => mkFormSystem (record_changed r f) (formSuspended s)
  | KeyDown event =>
      form_settle (onPressKeyboardShortCut event f) (formSuspended s)
  | SubmitForm => form_settle (onSubmit f) (formSuspended s)
  | ClickDiscard => form_settle (onDiscard f) (formSuspended s)
  | ClickClear => form_settle (onClear f) (formSuspended s)
  | CallResolved i =>
      match formSuspended s !! i with
      | Some k => mkFormSystem (form_resume k f) (delete i (formSuspended s))
      | None => s
      end
  end.

Definition form_steps (s : FormSystem) (events : list FormEvent)
  : FormSystem :=
  fold_left form_step events s.

Definition form_boot (r : FeedbackRecord) : FormSystem :=
  mkFormSystem (form_setup r) [].

(** The record of the form after each of the events. *)
Fixpoint records_seen (s : FormSystem) (events : list FormEvent)
  : list FeedbackRecord :=
  match events with
  | [] => []
  | e :: events =>
      record (form (form_step s e)) :: records_seen (form_step s e) events
  end.

(** No touched state is emitted in [l]. *)
Definition silent (l : list FormEffect) : Prop :=
  forall b, ~ In (EmitOnQuestionFormTouched b) l.

End QuestionsForm.

(** ** The form inside the parent

    [@on-submit-responses] and [@on-discard-responses] are bound to
    [goToNext], [@on-question-form-touched] to [onQuestionFormTouched]. *)

Section Wiring.

Context {RT : Runtime} {VM : ViewModel} {FM : FormModel}.

Definition listen (e : FormEffect) (c : Component) : Outcome :=
  match e with
  | EmitOnSubmitResponses => goToNext c
  | EmitOnDiscardResponses => goToNext c
  | EmitOnQuestionFormTouched isTouched =>
      Returned (onQuestionFormTouched isTouched c)
  | _ => Returned c
  end.

Definition outcome_component (o : Outcome) : Component :=
  match o with
  | Returned c => c
  | Awaiting c _ => c
  end.

End Wiring.

(** ** The effects a step adds *)

Section News.

Context {RT : Runtime} {VM : ViewModel} {FM : FormModel}.

(** The effects of [c'] that [c] did not have yet. *)
Definition new_effects (c c' : Component) : list Effect :=
  drop (length (effects c)) (effects c').

Definition new_form_effects (f f' : QuestionsForm) : list FormEffect :=
  drop (length (formEffects f)) (formEffects f').

(** [c'] shows what [c] shows: the same filters, page and loaded
    records, the same flags. *)
Definition same_view (c c' : Component) : Prop :=
  recordStatusToFilterWith c' = recordStatusToFilterWith c /\
  searchTextToFilterWith c' = searchTextToFilterWith c /\
  currentPage c' = currentPage c /\
  records c' = records c /\
  fetching c' = fetching c /\
  questionFormTouched c' = questionFormTouched c.

Definition is_info_notice (e : Effect) : bool :=
  match e with
  | NotificationNotify params =>
      match type params with
      | info => true
      | warning => false
      end
  | _ => false
  end.

End News.

(** ** A small instance, for concrete runs *)

Definition digit (a : ascii) : option number :=
  match a with
  | "0"%char => Some 0%float
  | "1"%char => Some 1%float
  | "2"%char => Some 2%float
  | "3"%char => Some 3%float
  | "4"%char => Some 4%float
  | "5"%char => Some 5%float
  | "6"%char => Some 6%float
  | "7"%char => Some 7%float
  | "8"%char => Some 8%float
  | "9"%char => Some 9%float
  | _ => None
  end.

(** Decimal digits read as a number; anything else is [NaN]. *)
Fixpoint digits (s : string) (acc : number) : number :=
  match s with
  | EmptyString => acc
  | String a s =>
      match digit a with
      | Some d => digits s (PrimFloat.add (PrimFloat.mul acc 10%float) d)
      | None => PrimFloat.nan
      end
  end.

Definition sampleRuntime : Runtime := {|
  StringToNumber := fun s => digits s 0%float;
  toLowerCase := fun s => if String.eqb s "PENDING" then "pending" else s;
  translate := fun key => key
|}.

(** A store that knows the pages it holds a record for. *)
Record SampleRecords : Type := mkSampleRecords {
  samplePages : list number;
  sampleTotal : number
}.

Definition sampleViewModel : ViewModel := {|
  Records := SampleRecords;
  existsRecordOn := fun r page =>
    match page with
    | Some x => existsb (PrimFloat.eqb x) (samplePages r)
    | None => false
    end;
  total := sampleTotal;
  clearRecords := fun _ => mkSampleRecords [] 0%float;
  RECORD_STATUS_PENDING := "PENDING"
|}.

Record SampleRecord : Type := mkSampleRecord {
  sampleSubmitted : bool;
  sampleModified : bool;
  sampleCompleted : bool
}.

Definition sampleFormModel : FormModel := {|
  FeedbackRecord := SampleRecord;
  isSubmitted := sampleSubmitted;
  isModified := sampleModified;
  questionAreCompletedCorrectly := sampleCompleted;
  initialize := fun r => r
|}.

(** A store with a record on page 1 only, two records in all. *)
Definition firstPageOnly : @Records sampleViewModel :=
  mkSampleRecords [1%float] 2%float.

(** The parent on page 1 of the pending queue, nothing in flight. *)
Definition sampleSystem : @System sampleViewModel :=
  @boot sampleRuntime sampleViewModel "dataset" firstPageOnly ∅.

Definition sampleComponent : @Component sampleViewModel :=
  component sampleSystem.

(** The same with the questions form touched. *)
Definition touchedComponent : @Component sampleViewModel :=
  onQuestionFormTouched true sampleComponent.

(** The same while a page change is in flight. *)
Definition busyComponent : @Component sampleViewModel :=
  set_fetching true sampleComponent.

(** A pending record, modified, with an incomplete answer, and the same
    with a complete answer. *)
Definition incompleteRecord : @FeedbackRecord sampleFormModel :=
  mkSampleRecord false true false.

Definition completeRecord : @FeedbackRecord sampleFormModel :=
  mkSampleRecord false true true.

Definition incompleteForm : @QuestionsForm sampleFormModel :=
  form_setup incompleteRecord.

Definition completeForm : @QuestionsForm sampleFormModel :=
  form_setup completeRecord.

(** The complete form once [onSubmit] has called [submit]. *)
Definition submittingForm : @QuestionsForm sampleFormModel :=
  form_perform (Submit completeRecord) completeForm.

(** ** More of the parent component *)

(** A value of the query of a location handed to the router. *)
Inductive QueryParam : Type :=
  | ParamNull
  | ParamString (s : string)
  | ParamNumber (x : number).

Definition string_param (v : option string) : QueryParam :=
  match v with
  | Some s => ParamString s
  | None => ParamNull
  end.

Definition number_param (v : option number) : QueryParam :=
  match v with
  | Some x => ParamNumber x
  | None => ParamNull
  end.

(** The argument of [this.$router.push]. *)
Record Location : Type := mkLocation {
  locationPath : string;
  locationQuery : gmap string QueryParam
}.

Section ParentWatchers.

Context {VM : ViewModel}.

Definition noRecordsMessage (c : Component) : string :=
  match searchTextToFilterWith c with
  | None =>
      "You have no " ++ template (recordStatusToFilterWith c) ++ " records"
  | Some searchText =>
      if Nat.eqb (String.length searchText) 0
      then "You have no " ++ template (recordStatusToFilterWith c) ++ " records"
      else "You have no " ++ template (recordStatusToFilterWith c)
             ++ " records matching the search input"
  end.

(** [{ ...this.$route.query }]. *)
Definition spread (q : gmap string (option string)) : gmap string QueryParam :=
  string_param <$> q.

(** The watchers: each pushes one location, built on the route of path
    [path] and of the query of the component. *)
Definition watch_currentPage (path : string) (newValue : option number)
    (c : Component) : Location :=
  mkLocation path
    (<["_status" := string_param (recordStatusToFilterWith c)]>
       (<["_page" := number_param newValue]> (spread (query c)))).

Definition watch_recordStatusToFilterWith (path : string)
    (newValue : option string) (c : Component) : Location :=
  mkLocation path
    (<["_page" := number_param (currentPage c)]>
       (<["_search" := string_param (searchTextToFilterWith c)]>
          (<["_status" := string_param newValue]> (spread (query c))))).

Definition watch_searchTextToFilterWith (path : string)
    (newValue : option string) (c : Component) : Location :=
  mkLocation path
    (<["_page" := number_param (currentPage c)]>
       (<["_status" := string_param (recordStatusToFilterWith c)]>
          (<["_search" := string_param newValue]> (spread (query c))))).

(** After creation the status filter is a string and the page a number. *)
Definition initialised (c : Component) : Prop :=
  is_Some (recordStatusToFilterWith c) /\ is_Some (currentPage c).

(** The loads among [l] are all made for dataset [id] with the filters
    [status] and [search]. *)
Definition loads_with (id : string) (status search : option string)
    (l : list Effect) : Prop :=
  forall id' page status' search',
    In (LoadRecords id' page status' search') l ->
    id' = id /\ status' = status /\ search' = search.

End ParentWatchers.

(** ** More of the questions form *)

Section FormAccounts.

Context {FM : FormModel}.

(** How many elements of [l] satisfy [p]. *)
Fixpoint tally {A : Type} (p : A -> bool) (l : list A) : nat :=
  match l with
  | [] => 0
  | x :: l => (if p x then 1 else 0) + tally p l
  end.

Definition is_submit_call (e : FormEffect) : bool :=
  match e with
  | Submit _ => true
  | _ => false
  end.

Definition is_submit_response (e : FormEffect) : bool :=
  match e with
  | EmitOnSubmitResponses => true
  | _ => false
  end.

Definition is_discard_call (e : FormEffect) : bool :=
  match e with
  | Discard _ => true
  | _ => false
  end.

Definition is_discard_response (e : FormEffect) : bool :=
  match e with
  | EmitOnDiscardResponses => true
  | _ => false
  end.

Definition awaits_submit (k : FormSuspended) : bool :=
  match k with
  | AwaitSubmit => true
  | _ => false
  end.

Definition awaits_discard (k : FormSuspended) : bool :=
  match k with
  | AwaitDiscard => true
  | _ => false
  end.

(** Every call of [submit] or [discard] has been answered by its event,
    or is still awaited. *)
Definition accounted (s : FormSystem) : Prop :=
  tally is_submit_call (formEffects (form s)) =
    tally is_submit_response (formEffects (form s))
      + tally awaits_submit (formSuspended s) /\
  tally is_discard_call (formEffects (form s)) =
    tally is_discard_response (formEffects (form s))
      + tally awaits_discard (formSuspended s).

(** A key press that is bound to an action of the form. *)
Definition is_shortcut (event : KeyboardEvent) : bool :=
  (String.eqb (code event) "KeyS" && (ctrlKey event || metaKey event))
  || ((String.eqb (code event) "Enter" || String.eqb (code event) "Space"
       || String.eqb (code event) "Backspace") && shiftKey event).

(** [isFormTouched] tells whether the record is modified. *)
Definition in_step (f : QuestionsForm) : Prop :=
  isFormTouched f = isModified (record f).

End FormAccounts.

(** A store with a record on pages 1 and 2. *)
Definition twoPages : @Records sampleViewModel :=
  mkSampleRecords [1%float; 2%float] 2%float.

(** A submitted record, complete and not modified, and its form. *)
Definition submittedRecord : @FeedbackRecord sampleFormModel :=
  mkSampleRecord true false true.

Definition submittedForm : @QuestionsForm sampleFormModel :=
  form_setup submittedRecord.

(** The submitted record once edited. *)
Definition editedRecord : @FeedbackRecord sampleFormModel :=
  mkSampleRecord true true true.

(** * Properties *)

Open Scope list_scope.

(** ** Effect logs only grow *)

Section Logs.

Context {A : Type}.

Lemma drop_own_length (l : list A) : drop (length l) l = [].
Proof. apply drop_all. Qed.

Lemma drop_app_one (l : list A) (x : A) : drop (length l) (l ++ [x]) = [x].
Proof. apply drop_app_length. Qed.

Lemma drop_app_two (l : list A) (x y : A) :
  drop (length l) ((l ++ [x]) ++ [y]) = [x; y].
Proof. rewrite <- app_assoc. apply drop_app_length. Qed.

Lemma drop_app_three (l : list A) (x y z : A) :
  drop (length l) (((l ++ [x]) ++ [y]) ++ [z]) = [x; y; z].
Proof. rewrite <- !app_assoc. apply drop_app_length. Qed.

End Logs.

Create Rewrite HintDb news.

#[local] Hint Rewrite @drop_own_length @drop_app_one @drop_app_two
  @drop_app_three : news.

(** Case analysis on every test of the goal, innermost test first. *)
Ltac test_atom b :=
  lazymatch b with
  | context [match ?x with _ => _ end] => test_atom x
  | negb ?x => test_atom x
  | andb ?x _ => test_atom x
  | orb ?x _ => test_atom x
  | _ => constr:(b)
  end.

Ltac branch :=
  repeat (cbn;
    match goal with
    | |- context [match ?b with _ => _ end] =>
        let a := test_atom b in
        let H := fresh "Htest" in destruct a eqn:H
    end);
  cbn; autorewrite with news; cbn.

(** Membership in an explicit list, case by case. *)
Ltac members :=
  repeat match goal with
    | H : _ \/ _ |- _ => destruct H
    | H : False |- _ => destruct H
    | H : In _ _ |- _ => cbn in H
    | H : _ = _ |- _ => discriminate H
    | H : ?f _ = ?f _ |- _ => injection H as H; subst
    end.

(** ** The questions form *)

Section FormProperties.

Context {FM : FormModel}.

Ltac form_unfold :=
  unfold form_step, form_settle, record_changed, flush_isFormTouched,
    watch_isFormTouched, watch_record, emitIsQuestionsFormTouched,
    onPressKeyboardShortCut, onSubmit, onDiscard, onClear,
    onSaveDraftImmediately, form_resume, destroyed,
    computed_questionAreCompletedCorrectly, new_form_effects in *.

(** Only a completed record is ever submitted, and it is the record of
    the form. *)
Lemma form_step_submits (s : FormSystem) (e : FormEvent) (r : FeedbackRecord) :
  In (Submit r) (new_form_effects (form s) (form (form_step s e))) ->
  questionAreCompletedCorrectly (record (form s)) = true /\ r = record (form s).
Proof.
  destruct s as [f waiting]. cbn [form].
  destruct e; form_unfold; cbn [form]; branch; intros; members; auto.
Qed.

(** A step appends to the log. *)
Lemma form_step_appends (s : FormSystem) (e : FormEvent) :
  formEffects (form (form_step s e)) =
  formEffects (form s)
    ++ new_form_effects (form s) (form (form_step s e)).
Proof.
  destruct s as [f waiting]. cbn [form].
  destruct e; form_unfold; cbn [form]; branch;
    rewrite <- ?app_assoc, ?app_nil_r; reflexivity.
Qed.

(** The touched state is emitted by a step only for a submitted record. *)
Lemma form_step_touched (s : FormSystem) (e : FormEvent) (b : bool) :
  In (EmitOnQuestionFormTouched b)
    (new_form_effects (form s) (form (form_step s e))) ->
  isSubmitted (record (form (form_step s e))) = true.
Proof.
  destruct s as [f waiting]. cbn [form].
  destruct e; form_unfold; cbn [form]; branch; intros; members; auto.
Qed.

(** C1: submission is blocked until the questions are completed
    correctly.  While [record.questionAreCompletedCorrectly()] is false the
    submit button is disabled, [onSubmit] returns at once with the form
    unchanged, and no event whatsoever makes the form call [submit].
    Once it is true, [onSubmit] calls [submit] on the record and, when
    that call resolves, emits [on-submit-responses]; the button is then
    disabled only for an already submitted record whose form is not
    touched. *)
Theorem submission_blocked_until_completed (s : FormSystem) :
  (questionAreCompletedCorrectly (record (form s)) = false ->
     isSubmitButtonDisabled (form s) = true /\
     onSubmit (form s) = FormReturned (form s) /\
     forall e r,
       ~ In (Submit r) (new_form_effects (form s) (form (form_step s e)))) /\
  (questionAreCompletedCorrectly (record (form s)) = true ->
     onSubmit (form s) =
       FormAwaiting (form_perform (Submit (record (form s))) (form s))
         AwaitSubmit /\
     new_form_effects (form s)
       (form_resume AwaitSubmit
          (form_perform (Submit (record (form s))) (form s))) =
       [Submit (record (form s)); EmitOnSubmitResponses] /\
     isSubmitButtonDisabled (form s) =
       isSubmitted (record (form s)) && negb (isFormTouched (form s))).
Proof.
  split; intros Hq.
  - repeat split.
    + unfold isSubmitButtonDisabled, computed_questionAreCompletedCorrectly.
      rewrite Hq. cbn. rewrite orb_true_r. destruct (isSubmitted _); reflexivity.
    + unfold onSubmit, computed_questionAreCompletedCorrectly.
      rewrite Hq. reflexivity.
    + intros e r Hin. apply form_step_submits in Hin as [Hq' _]. congruence.
  - repeat split.
    + unfold onSubmit, computed_questionAreCompletedCorrectly.
      rewrite Hq. reflexivity.
    + unfold new_form_effects. cbn. apply drop_app_two.
    + unfold isSubmitButtonDisabled, computed_questionAreCompletedCorrectly.
      rewrite Hq. cbn. rewrite orb_false_r.
      destruct (isSubmitted _); reflexivity.
Qed.


Lemma form_steps_silent (events : list FormEvent) (s : FormSystem) :
  silent (formEffects (form s)) ->
  Forall (fun r => isSubmitted r = false) (records_seen s events) ->
  silent (formEffects (form (form_steps s events))).
Proof.
  revert s. induction events as [|e events IH]; intros s Hs Hall; [exact Hs|].
  cbn in Hall. apply Forall_cons in Hall as [Hr Hall].
  cbn. apply IH; [|exact Hall].
  intros b Hin. rewrite form_step_appends in Hin.
  apply in_app_or in Hin as [Hin|Hin]; [exact (Hs b Hin)|].
  apply form_step_touched in Hin. congruence.
Qed.

Lemma form_setup_silent (r : FeedbackRecord) :
  isSubmitted (initialize r) = false ->
  silent (formEffects (form_setup r)).
Proof.
  intros Hr b. unfold form_setup, form_created, form_data. form_unfold.
  destruct (isModified r) eqn:Hm; repeat (simpl; rewrite ?Hm, ?Hr);
    unfold not; intros; members; auto.
Qed.

End FormProperties.

(** ** The parent component *)

Lemma strict_eq_string_true (a : option string) (b : string) :
  strict_eq_string a b = true <-> a = Some b.
Proof.
  destruct a as [s|]; cbn.
  - rewrite String.eqb_eq. split; congruence.
  - split; discriminate.
Qed.

Lemma strict_eq_string_false (a : option string) (b : string) :
  strict_eq_string a b = false <-> a <> Some b.
Proof.
  rewrite <- strict_eq_string_true. destruct (strict_eq_string a b); split;
    congruence.
Qed.

(** [x === 1] holds of the number 1 only. *)
Lemma SFeqb_finite_positive (f : spec_float) (m : positive) (e : Z) :
  SFeqb f (S754_finite false m e) = true -> f = S754_finite false m e.
Proof.
  unfold SFeqb, SFcompare.
  destruct f as [s|s| |s m' e']; try discriminate.
  - destruct s; discriminate.
  - destruct s; try discriminate.
    destruct (Z.compare e' e) eqn:He; try discriminate.
    apply Z.compare_eq_iff in He. subst e'.
    destruct (Pos.compare_cont Eq m' m) eqn:Hm; try discriminate.
    apply Pos.compare_eq_iff in Hm. subst m'. reflexivity.
Qed.

Lemma eqb_one (x : number) : PrimFloat.eqb x one = true -> x = one.
Proof.
  intros H. rewrite FloatAxioms.eqb_spec in H. apply Prim2SF_inj.
  replace (Prim2SF one) with (S754_finite false 4503599627370496 (-52)) in *
    by (vm_compute; reflexivity).
  apply SFeqb_finite_positive, H.
Qed.

Lemma strict_neq_one_false (page : option number) :
  strict_neq_one page = false <-> page = Some one.
Proof.
  destruct page as [x|]; cbn; [|split; discriminate].
  split.
  - intros H. f_equal. apply eqb_one. destruct (PrimFloat.eqb x one);
      [reflexivity | discriminate].
  - intros [= ->]. reflexivity.
Qed.

Section ParentProperties.

Context {RT : Runtime} {VM : ViewModel}.

Ltac parent_unfold :=
  unfold step, react, settle, notification_callback, run_callback, goToNext,
    goToPrev, onStatusFilterChanged, onSearchFilterChanged,
    applyStatusFilter, applySearchFilter, emitResetStatusFilter,
    emitResetSearchFilter, resume, fetch, fetch_after_first_load,
    fetch_after_second_load, setCurrentPage, setCurrentPage_after_load,
    setCurrentPage_finish, after_fetch, checkAndEmitTotalRecords,
    call_loadRecords, call_clearRecords, onQuestionFormTouched,
    new_effects, same_view in *.

(** *** The [fetching] guard *)

Lemma react_idle (e : Event) (c : Component) :
  fetching c = false -> settled_guarded (react e c).
Proof.
  intros Hf. destruct e; unfold settled_guarded; parent_unfold;
    rewrite ?Hf; branch; repeat split; auto; try congruence.
Qed.

Lemma react_busy (e : Event) (c : Component) :
  fetching c = true -> stays_busy c (react e c).
Proof.
  intros Hf. destruct e; unfold stays_busy; parent_unfold;
    rewrite ?Hf; branch; repeat split; auto; try congruence.
Qed.

Lemma resume_guarded (k : Suspended) (loaded : Records) (c : Component) :
  fetching c = true ->
  match k with
  | FetchSecondLoad _ => currentPage c = Some one
  | _ => True
  end ->
  settled_guarded (resume k loaded c).
Proof.
  intros Hf Hk. destruct k; unfold settled_guarded; parent_unfold;
    branch; repeat split; auto; try congruence.
Qed.

Lemma step_guarded (s : System) (e : Event) :
  guarded s -> guarded (step s e).
Proof.
  destruct s as [c [|k [|k' waiting]]]; unfold guarded;
    cbn [suspended component]; [intros Hf | intros [Hf Hk] | intros []].
  - assert (Hidle := react_idle e c Hf).
    destruct e; cbn [step suspended component]; try exact Hf;
      destruct (react _ c); cbn in *; auto.
  - assert (Hbusy := react_busy e c Hf).
    destruct e as [ | | | | | | | | | | i loaded | ];
      cbn [step suspended component];
      try (destruct (react _ c); cbn in *; [|contradiction];
           destruct Hbusy as [Hf' Hp]; split; [exact Hf'|];
           destruct k; auto).
    destruct i as [|[|i]]; cbn; auto.
    assert (Hres := resume_guarded k loaded c Hf Hk).
    destruct (resume k loaded c); cbn in *; auto.
Qed.

Lemma steps_guarded (events : list Event) (s : System) :
  guarded s -> guarded (steps s events).
Proof.
  revert s. induction events as [|e events IH]; intros s Hs; [exact Hs|].
  cbn. apply IH, step_guarded, Hs.
Qed.

Lemma boot_guarded (id : string) (r : Records)
    (q : gmap string (option string)) :
  guarded (boot id r q).
Proof. reflexivity. Qed.

Lemma guarded_length (s : System) :
  guarded s ->
  length (suspended s) <= 1 /\
  (fetching (component s) = true <-> length (suspended s) = 1).
Proof.
  unfold guarded. destruct (suspended s) as [|k [|k' waiting]]; cbn.
  - intros ->. split; [lia|]. split; discriminate.
  - intros [-> _]. split; [lia|]. split; reflexivity.
  - intros [].
Qed.

(** C4: while [fetching] is set, a call of [fetch] or of
    [setCurrentPage] returns at once and leaves the component as it is;
    and in every run of the component from its creation at most one method
    is suspended at a [loadRecords], exactly when [fetching] is set, so two
    fetches never overlap. *)
Theorem second_call_ignored_while_fetching (c : Component) :
  fetching c = true ->
  fetch FetchHook c = Returned c /\
  (forall newPage, setCurrentPage newPage c = Returned c) /\
  (forall waiting,
     step (mkSystem c waiting) FetchCalled = mkSystem c waiting /\
     step (mkSystem c waiting) GoToNextPage = mkSystem c waiting /\
     step (mkSystem c waiting) GoToPrevPage = mkSystem c waiting) /\
  (forall id r q events,
     let s := steps (boot id r q) events in
     length (suspended s) <= 1 /\
     (fetching (component s) = true <-> length (suspended s) = 1)).
Proof.
  intros Hf. repeat split;
    try (intros; parent_unfold; cbn; rewrite Hf; reflexivity);
    apply guarded_length, steps_guarded, boot_guarded.
Qed.

(** C5: on creation the view state is read from the route query:
    the status filter is [_status], or the lowercase pending status when
    [_status] is absent or null; the search filter is [_search], or the
    empty string; the current page is the number [+_page], or 1. *)
Theorem created_reads_the_query (id : string) (r : Records)
    (q : gmap string (option string)) :
  recordStatusToFilterWith (created (data id r q)) =
    Some (match q !! "_status" with
          | Some (Some _status) => _status
          | _ => toLowerCase RECORD_STATUS_PENDING
          end) /\
  searchTextToFilterWith (created (data id r q)) =
    Some (match q !! "_search" with
          | Some (Some _search) => _search
          | _ => ""
          end) /\
  currentPage (created (data id r q)) =
    Some (match q !! "_page" with
          | Some (Some _page) => StringToNumber _page
          | _ => 1%float
          end).
Proof. repeat split. Qed.

(** C8: a status filter change to the status already in force does
    nothing: [onStatusFilterChanged] returns the component as it is, with
    no notification, touched form or not. *)
Theorem same_status_is_ignored (newStatus : string) (c : Component) :
  recordStatusToFilterWith c = Some newStatus ->
  onStatusFilterChanged newStatus c = Returned c /\
  forall waiting,
    step (mkSystem c waiting) (StatusFilterChanged newStatus) =
    mkSystem c waiting.
Proof.
  intros Hs. apply strict_eq_string_true in Hs.
  split; intros; parent_unfold; cbn; rewrite Hs; reflexivity.
Qed.


Lemma strict_neq_one_one : strict_neq_one (Some one) = false.
Proof. reflexivity. Qed.

(** C3, as amended: when [setCurrentPage], not held back by the
    [fetching] guard and run to its end with nothing in between, finds no
    record on the requested page even after loading it, [currentPage] is
    left as it is, and an informational
    notification is dispatched exactly when the requested page is greater
    than the current one ([currentPage < newPage]); for a page that is not
    ahead nothing is dispatched. *)
Theorem missing_page_keeps_current_page (newPage : number) (c : Component)
    (loaded : Records) :
  fetching c = false ->
  existsRecordOn (records c) (Some newPage) = false ->
  existsRecordOn loaded (Some newPage) = false ->
  exists c',
    complete [loaded] (setCurrentPage newPage c) = Some c' /\
    currentPage c' = currentPage c /\
    fetching c' = false /\
    records c' = loaded /\
    new_effects c c' =
      LoadRecords (datasetId c) (Some newPage) (recordStatusToFilterWith c)
        (searchTextToFilterWith c)
      :: (if PrimFloat.ltb (page_number (currentPage c)) newPage
          then [NotificationNotify (noMoreDataNotice c)]
          else []) /\
    type (noMoreDataNotice c) = info.
Proof.
  intros Hf Hold Hnew. unfold setCurrentPage. rewrite Hf. cbn.
  rewrite Hold. cbn. unfold setCurrentPage_after_load. cbn. rewrite Hnew.
  unfold setCurrentPage_finish. cbn.
  destruct (PrimFloat.ltb (page_number (currentPage c)) newPage);
    eexists; repeat split; unfold new_effects; cbn.
  - apply drop_app_two.
  - apply drop_app_one.
Qed.


(** A fetch that completes in the middle of a run leaves a record on the
    current page, or the current page at 1. *)
Lemma fetch_completed_in_a_run (s : System) (a : Awaiter) (loaded : Records) :
  guarded s ->
  suspended s = [FetchFirstLoad a] \/ suspended s = [FetchSecondLoad a] ->
  suspended (step s (RecordsLoaded 0 loaded)) = [] ->
  existsRecordOn (records (component (step s (RecordsLoaded 0 loaded))))
    (currentPage (component (step s (RecordsLoaded 0 loaded)))) = true \/
  currentPage (component (step s (RecordsLoaded 0 loaded))) = Some one.
Proof.
  destruct s as [c waiting]. unfold guarded. cbn [suspended component].
  intros Hg [-> | ->]; destruct Hg as [Hf Hp]; cbn.
  - unfold fetch_after_first_load. cbn.
    destruct (existsRecordOn loaded (currentPage c)) eqn:He; cbn.
    + intros _. left. destruct a; cbn; unfold checkAndEmitTotalRecords;
        branch; exact He.
    + destruct (strict_neq_one (currentPage c)) eqn:Hn; cbn;
        [discriminate|].
      intros _. right. apply strict_neq_one_false in Hn.
      destruct a; cbn; unfold checkAndEmitTotalRecords; branch; exact Hn.
  - intros _. right.
    destruct a; cbn; unfold checkAndEmitTotalRecords; branch; exact Hp.
Qed.

(** C10: a run of [fetch] that is not held back by the [fetching] guard
    completes, and it ends with a record on [currentPage] or with
    [currentPage] equal to 1: when the first load leaves no record on the
    current page and the page is not 1, [fetch] sets [currentPage] to 1
    and loads the records of page 1.  The same holds of a fetch that
    completes in the middle of any run of the component. *)
Theorem fetch_ends_on_a_record_or_on_page_one (a : Awaiter) (c : Component)
    (first second : Records) :
  fetching c = false ->
  (exists c',
     complete [first; second] (fetch a c) = Some c' /\
     fetching c' = false /\
     (existsRecordOn (records c') (currentPage c') = true \/
      currentPage c' = Some one) /\
     (existsRecordOn first (currentPage c) = false ->
      strict_neq_one (currentPage c) = true ->
      currentPage c' = Some one /\
      records c' = second /\
      In (LoadRecords (datasetId c) (Some one) (recordStatusToFilterWith c)
            (searchTextToFilterWith c))
         (new_effects c c'))) /\
  (forall id r q events loaded a',
     let s := steps (boot id r q) events in
     let s' := step s (RecordsLoaded 0 loaded) in
     suspended s = [FetchFirstLoad a'] \/ suspended s = [FetchSecondLoad a'] ->
     suspended s' = [] ->
     existsRecordOn (records (component s')) (currentPage (component s')) = true \/
     currentPage (component s') = Some one).
Proof.
  intros Hf. split.
  - unfold fetch. rewrite Hf. cbn. unfold fetch_after_first_load. cbn.
    destruct (existsRecordOn first (currentPage c)) eqn:He; cbn.
    + eexists. split; [reflexivity|].
      destruct a; cbn; unfold checkAndEmitTotalRecords; branch;
        repeat split; auto; discriminate.
    + destruct (strict_neq_one (currentPage c)) eqn:Hn; cbn.
      * eexists. split; [reflexivity|].
        destruct a; cbn; unfold checkAndEmitTotalRecords, new_effects; branch;
          repeat split; auto;
          rewrite <- ?app_assoc, drop_app_length; cbn; auto.
      * apply strict_neq_one_false in Hn.
        eexists. split; [reflexivity|].
        destruct a; cbn; unfold checkAndEmitTotalRecords; branch;
          repeat split; auto; discriminate.
  - intros id r q events loaded a' s s'. subst s s'.
    apply fetch_completed_in_a_run, steps_guarded, boot_guarded.
Qed.

End ParentProperties.

(** ** The form inside the parent *)

Section WiringProperties.

Context {RT : Runtime} {VM : ViewModel} {FM : FormModel}.

Lemma setCurrentPage_keeps_touched (newPage : number) (c : Component) :
  questionFormTouched (outcome_component (setCurrentPage newPage c)) =
  questionFormTouched c.
Proof. unfold setCurrentPage, setCurrentPage_finish. branch; reflexivity. Qed.

(** Nothing but the touched event changes [questionFormTouched]. *)
Lemma listen_keeps_touched (eff : FormEffect) (c : Component) :
  (forall b, eff <> EmitOnQuestionFormTouched b) ->
  questionFormTouched (outcome_component (listen eff c)) =
  questionFormTouched c.
Proof.
  intros Hne. destruct eff; cbn; try reflexivity;
    try apply setCurrentPage_keeps_touched.
  destruct (Hne isFormTouched0). reflexivity.
Qed.


End WiringProperties.

(** ** The properties at work on the sample instance *)

#[local] Existing Instances sampleRuntime sampleViewModel sampleFormModel.

(** The next page asked for past the end of the queue: the notice. *)
Example next_page_past_the_end_notifies :
  effects
    (component
       (steps sampleSystem
          [FetchCalled; RecordsLoaded 0 firstPageOnly;
           GoToNextPage; RecordsLoaded 0 firstPageOnly])) =
  [LoadMetrics "dataset";
   ClearRecords;
   LoadRecords "dataset" (Some 1%float) (Some "pending") (Some "");
   LoadRecords "dataset" (Some 2%float) (Some "pending") (Some "");
   NotificationNotify
     (mkNotifyParams
        "You've reached the end of the data for the pending queue."
        None 57 info None None)].
Proof. vm_compute. reflexivity. Qed.

(** A route on page 3 of the submitted queue, where no record is: the
    first fetch falls back to page 1. *)
Example fetch_falls_back_to_page_one :
  effects
    (component
       (steps
          (boot "dataset" firstPageOnly
             (<["_page" := Some "3"]> (<["_status" := Some "submitted"]> ∅)))
          [FetchCalled; RecordsLoaded 0 firstPageOnly;
           RecordsLoaded 0 firstPageOnly])) =
  [LoadMetrics "dataset";
   ClearRecords;
   LoadRecords "dataset" (Some 3%float) (Some "submitted") (Some "");
   LoadRecords "dataset" (Some 1%float) (Some "submitted") (Some "")].
Proof. vm_compute. reflexivity. Qed.

(** A submitted record is edited, submitted again, and comes back
    unmodified. *)
Example submitted_record_edited_and_submitted :
  formEffects
    (form
       (form_steps (form_boot (mkSampleRecord true false true))
          [RecordChanged (mkSampleRecord true true true);
           SubmitForm;
           CallResolved 0;
           RecordChanged (mkSampleRecord true false true)])) =
  [SaveDraft (mkSampleRecord true true true);
   EmitOnQuestionFormTouched true;
   RootEmitAreResponsesUntouched false;
   Submit (mkSampleRecord true true true);
   EmitOnSubmitResponses;
   EmitOnQuestionFormTouched false;
   RootEmitAreResponsesUntouched true].
Proof. vm_compute. reflexivity. Qed.

Lemma submission_blocked_until_completed_witness :
  isSubmitButtonDisabled incompleteForm = true /\
  onSubmit incompleteForm = FormReturned incompleteForm /\
  onSubmit completeForm =
    FormAwaiting (form_perform (Submit (record completeForm)) completeForm)
      AwaitSubmit.
Proof.
  destruct (submission_blocked_until_completed (mkFormSystem incompleteForm []))
    as [Hblocked _].
  destruct (submission_blocked_until_completed (mkFormSystem completeForm []))
    as [_ Hopen].
  destruct (Hblocked eq_refl) as (Hbutton & Hsubmit & _).
  destruct (Hopen eq_refl) as (Hcall & _).
  exact (conj Hbutton (conj Hsubmit Hcall)).
Defined.



Lemma second_call_ignored_while_fetching_witness :
  fetch FetchHook busyComponent = Returned busyComponent /\
  setCurrentPage 2%float busyComponent = Returned busyComponent.
Proof.
  destruct (second_call_ignored_while_fetching
              busyComponent eq_refl)
    as (Hfetch & Hpage & _).
  exact (conj Hfetch (Hpage 2%float)).
Defined.

Lemma same_status_is_ignored_witness :
  onStatusFilterChanged "pending" touchedComponent =
  Returned touchedComponent.
Proof.
  exact (proj1 (same_status_is_ignored "pending" touchedComponent eq_refl)).
Defined.


Lemma missing_page_keeps_current_page_witness :
  exists c',
    complete [firstPageOnly] (setCurrentPage 2%float sampleComponent) = Some c' /\
    currentPage c' = currentPage sampleComponent /\
    fetching c' = false /\
    records c' = firstPageOnly /\
    new_effects sampleComponent c' =
      LoadRecords (datasetId sampleComponent) (Some 2%float)
        (recordStatusToFilterWith sampleComponent)
        (searchTextToFilterWith sampleComponent)
      :: (if PrimFloat.ltb (page_number (currentPage sampleComponent)) 2%float
          then [NotificationNotify (noMoreDataNotice sampleComponent)]
          else []) /\
    type (noMoreDataNotice sampleComponent) = info.
Proof.
  exact (missing_page_keeps_current_page 2%float sampleComponent firstPageOnly
           eq_refl eq_refl eq_refl).
Defined.


Lemma fetch_ends_on_a_record_or_on_page_one_witness :
  exists c',
    complete [firstPageOnly; firstPageOnly] (fetch FetchHook sampleComponent) =
      Some c' /\
    fetching c' = false /\
    (existsRecordOn (records c') (currentPage c') = true \/
     currentPage c' = Some one).
Proof.
  destruct (fetch_ends_on_a_record_or_on_page_one
              FetchHook sampleComponent firstPageOnly firstPageOnly eq_refl)
    as [(c' & Hrun & Hidle & Hends & _) _].
  exists c'. exact (conj Hrun (conj Hidle Hends)).
Defined.

(** ** Counterexamples *)

(** C3 as stated fails.  The component is created on page 1 and its
    first fetch finds a record there; then the previous page is asked for:
    no record is on page 0 even after loading it, [currentPage] stays 1,
    and no notification is dispatched, informational or other. *)
Lemma no_notice_for_a_page_behind :
  existsRecordOn firstPageOnly (Some 0%float) = false /\
  suspended
    (steps sampleSystem
       [FetchCalled; RecordsLoaded 0 firstPageOnly;
        GoToPrevPage; RecordsLoaded 0 firstPageOnly]) = [] /\
  currentPage
    (component
       (steps sampleSystem
          [FetchCalled; RecordsLoaded 0 firstPageOnly;
           GoToPrevPage; RecordsLoaded 0 firstPageOnly])) = Some 1%float /\
  effects
    (component
       (steps sampleSystem
          [FetchCalled; RecordsLoaded 0 firstPageOnly;
           GoToPrevPage; RecordsLoaded 0 firstPageOnly])) =
    [LoadMetrics "dataset";
     ClearRecords;
     LoadRecords "dataset" (Some 1%float) (Some "pending") (Some "");
     LoadRecords "dataset" (Some 0%float) (Some "pending") (Some "")] /\
  existsb is_info_notice
    (effects
       (component
          (steps sampleSystem
             [FetchCalled; RecordsLoaded 0 firstPageOnly;
              GoToPrevPage; RecordsLoaded 0 firstPageOnly]))) = false.
Proof. vm_compute. repeat split. Qed.


(** * Further properties *)

(** ** The parent component, event by event *)

Section ParentSteps.

Context {RT : Runtime} {VM : ViewModel}.

Ltac unfold_parent :=
  unfold step, react, settle, notification_callback, run_callback, goToNext,
    goToPrev, onStatusFilterChanged, onSearchFilterChanged,
    applyStatusFilter, applySearchFilter, emitResetStatusFilter,
    emitResetSearchFilter, resume, fetch, fetch_after_first_load,
    fetch_after_second_load, setCurrentPage, setCurrentPage_after_load,
    setCurrentPage_finish, after_fetch, checkAndEmitTotalRecords,
    call_loadRecords, call_clearRecords, onQuestionFormTouched,
    new_effects, same_view in *.

(** A step appends to the log. *)
Lemma step_appends (s : System) (e : Event) :
  effects (component (step s e)) =
  effects (component s) ++ new_effects (component s) (component (step s e)).
Proof.
  destruct s as [c waiting].
  destruct e; unfold_parent; cbn [component suspended]; branch;
    rewrite <- ?app_assoc, ?app_nil_r; reflexivity.
Qed.

(** X1: a search filter change to the value the route already has is
    ignored, touched form or not: [onSearchFilterChanged] returns the
    component as it is, and so nothing is loaded or dispatched. *)
Theorem same_search_is_ignored (c : Component) (waiting : list Suspended) :
  onSearchFilterChanged (Some (searchFilterFromQuery c)) c = Returned c /\
  step (mkSystem c waiting) (SearchFilterChanged (Some (searchFilterFromQuery c))) =
    mkSystem c waiting.
Proof.
  assert (H : strict_eq_string (Some (searchFilterFromQuery c))
                (searchFilterFromQuery c) = true)
    by (apply strict_eq_string_true; reflexivity).
  split; unfold step, react, settle, onSearchFilterChanged; cbn [component suspended];
    rewrite H; cbn; rewrite andb_false_r; reflexivity.
Qed.

(** X9: only the touched event of the form changes
    [questionFormTouched]: every other event, a confirmed filter change
    among them, leaves the flag as it was. *)
Theorem only_the_form_changes_touched (s : System) (e : Event) :
  questionFormTouched (component (step s e)) =
  match e with
  | OnQuestionFormTouched isTouched => isTouched
  | _ => questionFormTouched (component s)
  end.
Proof.
  destruct s as [c waiting].
  destruct e; unfold_parent; cbn [component suspended]; branch; congruence.
Qed.

(** X10: a filter never changes without the page being put back to 1. *)
Theorem filter_change_resets_page (s : System) (e : Event) :
  recordStatusToFilterWith (component (step s e)) <>
    recordStatusToFilterWith (component s) \/
  searchTextToFilterWith (component (step s e)) <>
    searchTextToFilterWith (component s) ->
  currentPage (component (step s e)) = Some one.
Proof.
  destruct s as [c waiting].
  destruct e; unfold_parent; cbn [component suspended]; branch;
    intros [H | H]; try reflexivity; try (destruct H; reflexivity).
Qed.

Lemma step_initialised (s : System) (e : Event) :
  initialised (component s) -> initialised (component (step s e)).
Proof.
  destruct s as [c waiting]. unfold initialised.
  destruct e; unfold_parent; cbn [component suspended]; branch;
    intros [Hs Hp]; split; eauto.
Qed.

Lemma steps_initialised (events : list Event) (s : System) :
  initialised (component s) -> initialised (component (steps s events)).
Proof.
  revert s. induction events as [|e events IH]; intros s Hs; [exact Hs|].
  cbn. apply IH, step_initialised, Hs.
Qed.

(** X4: in every run of the component from its creation the status
    filter is a string and the current page a number, so that the message
    of the end of the queue always names a queue. *)
Theorem status_and_page_stay_set (id : string) (r : Records)
    (q : gmap string (option string)) (events : list Event) :
  exists status page,
    recordStatusToFilterWith (component (steps (boot id r q) events)) =
      Some status /\
    currentPage (component (steps (boot id r q) events)) = Some page /\
    noMoreDataMessage (component (steps (boot id r q) events)) =
      ("You've reached the end of the data for the " ++ status ++ " queue.")%string.
Proof.
  destruct (steps_initialised events (boot id r q)) as [[status Hs] [page Hp]].
  { split; eexists; reflexivity. }
  exists status, page. repeat split; [exact Hs | exact Hp |].
  unfold noMoreDataMessage. rewrite Hs. reflexivity.
Qed.

(** X6: nothing stays in flight: from any state the component reaches,
    two resolved loads at most bring it back to rest, [fetching] cleared
    and no method suspended. *)
Theorem two_loads_bring_to_rest (id : string) (r : Records)
    (q : gmap string (option string)) (events : list Event)
    (first second : Records) :
  suspended
    (steps (steps (boot id r q) events)
       [RecordsLoaded 0 first; RecordsLoaded 0 second]) = [] /\
  fetching
    (component
       (steps (steps (boot id r q) events)
          [RecordsLoaded 0 first; RecordsLoaded 0 second])) = false.
Proof.
  assert (Hg := steps_guarded events (boot id r q) (boot_guarded id r q)).
  destruct (steps (boot id r q) events) as [c [|k [|k' waiting]]];
    unfold guarded in Hg; cbn [suspended component] in Hg.
  - cbn. auto.
  - destruct Hg as [Hf Hk].
    destruct k; unfold steps; cbn [fold_left]; unfold_parent; cbn; branch; auto.
  - destruct Hg.
Qed.

(** X5: whatever a step asks the view model to load, it asks for the
    dataset of the component and with the status and search filters the
    component holds at the end of the step; the dataset never changes. *)
Theorem loads_use_the_filters_in_force (s : System) (e : Event) :
  loads_with (datasetId (component s))
    (recordStatusToFilterWith (component (step s e)))
    (searchTextToFilterWith (component (step s e)))
    (new_effects (component s) (component (step s e))) /\
  datasetId (component (step s e)) = datasetId (component s).
Proof.
  destruct s as [c waiting]. unfold loads_with.
  destruct e; unfold_parent; cbn [component suspended]; branch;
    (split; [|reflexivity]); intros; members;
    try match goal with
      | H : LoadRecords _ _ _ _ = _ |- _ => inversion H; subst
      end;
    auto.
Qed.

End ParentSteps.

(** ** Where notifications come from *)

Section ParentNotifications.

Context {RT : Runtime} {VM : ViewModel}.

Ltac unfold_parent :=
  unfold step, react, settle, notification_callback, run_callback, goToNext,
    goToPrev, onStatusFilterChanged, onSearchFilterChanged,
    applyStatusFilter, applySearchFilter, emitResetStatusFilter,
    emitResetSearchFilter, resume, fetch, fetch_after_first_load,
    fetch_after_second_load, setCurrentPage, setCurrentPage_after_load,
    setCurrentPage_finish, after_fetch, checkAndEmitTotalRecords,
    call_loadRecords, call_clearRecords, onQuestionFormTouched,
    new_effects, same_view in *.

Ltac notified :=
  intros; members;
  try match goal with
    | H : NotificationNotify _ = NotificationNotify _ |- _ =>
        inversion H; subst; clear H
    end;
  try match goal with
    | H : type _ = _ |- _ => cbn in H; try discriminate H
    end.


(** X3: the notice of the end of the queue is dispatched only as the
    load of a requested page resolves without a record on that page, the
    page being ahead of the current one; the current page then stays. *)
Theorem notices_come_from_loads_ahead (s : System) (e : Event)
    (params : NotifyParams) :
  In (NotificationNotify params)
    (new_effects (component s) (component (step s e))) ->
  type params = info ->
  exists i loaded newPage,
    e = RecordsLoaded i loaded /\
    suspended s !! i = Some (SetCurrentPageLoad newPage) /\
    existsRecordOn loaded (Some newPage) = false /\
    PrimFloat.ltb (page_number (currentPage (component s))) newPage = true /\
    currentPage (component (step s e)) = currentPage (component s) /\
    params = noMoreDataNotice (component s).
Proof.
  destruct s as [c waiting].
  destruct e; unfold_parent; cbn [component suspended]; branch; notified.
  do 3 eexists. repeat split; eauto.
Qed.

(** X7: a page with a record is moved to.  When the store already has
    the record, [setCurrentPage] sets the page at once and loads nothing;
    when the record arrives with the load, it sets the page after that one
    load.  No notification either way. *)
Theorem page_with_a_record_is_moved_to (newPage : number) (c : Component)
    (loaded : Records) :
  fetching c = false ->
  (existsRecordOn (records c) (Some newPage) = true ->
   exists c',
     setCurrentPage newPage c = Returned c' /\
     currentPage c' = Some newPage /\
     records c' = records c /\
     fetching c' = false /\
     new_effects c c' = []) /\
  (existsRecordOn (records c) (Some newPage) = false ->
   existsRecordOn loaded (Some newPage) = true ->
   exists c',
     complete [loaded] (setCurrentPage newPage c) = Some c' /\
     currentPage c' = Some newPage /\
     records c' = loaded /\
     fetching c' = false /\
     new_effects c c' =
       [LoadRecords (datasetId c) (Some newPage) (recordStatusToFilterWith c)
          (searchTextToFilterWith c)]).
Proof.
  intros Hf. split.
  - intros Hold. unfold setCurrentPage, setCurrentPage_finish.
    rewrite Hf. cbn. rewrite Hold. cbn.
    eexists. repeat split. unfold new_effects. cbn. apply drop_own_length.
  - intros Hold Hnew. unfold setCurrentPage. rewrite Hf. cbn. rewrite Hold. cbn.
    unfold setCurrentPage_after_load, setCurrentPage_finish. cbn.
    rewrite Hnew. eexists. repeat split. unfold new_effects. cbn.
    apply drop_app_one.
Qed.

Lemma callback_of_the_last_notification
    (pick : NotifyParams -> option Callback) (params : NotifyParams)
    (c : Component) :
  notification_callback pick (length (effects c))
    (perform (NotificationNotify params) c) = pick params.
Proof.
  unfold notification_callback. cbn.
  rewrite (list_lookup_middle (effects c) [] _ (length (effects c)) eq_refl).
  reflexivity.
Qed.

Lemma touched_status_change_warns (c : Component) (waiting : list Suspended)
    (newStatus : string) :
  questionFormTouched c = true ->
  recordStatusToFilterWith c <> Some newStatus ->
  step (mkSystem c waiting) (StatusFilterChanged newStatus) =
  mkSystem (perform (NotificationNotify (unsavedStatusWarning newStatus)) c)
    waiting.
Proof.
  intros Ht Hs. apply strict_eq_string_false in Hs.
  unfold step, react, onStatusFilterChanged. cbn. rewrite Hs, Ht. reflexivity.
Qed.

Lemma touched_search_change_warns (c : Component) (waiting : list Suspended)
    (newSearchValue : option string) :
  questionFormTouched c = true ->
  newSearchValue <> Some (searchFilterFromQuery c) ->
  step (mkSystem c waiting) (SearchFilterChanged newSearchValue) =
  mkSystem
    (perform (NotificationNotify (unsavedSearchWarning newSearchValue)) c)
    waiting.
Proof.
  intros Ht Hs. apply strict_eq_string_false in Hs.
  unfold step, react, onSearchFilterChanged. cbn. rewrite Hs, Ht. reflexivity.
Qed.

(** X8: the warning does what its button says.  After a status or
    search change has been held back by the warning, a click on the button
    of that notification applies the very filter that was asked for, page
    put back to 1, and closing it only emits the reset event; the form
    stays touched for the parent. *)
Theorem confirmed_warning_applies_the_filter (c : Component)
    (waiting : list Suspended) :
  questionFormTouched c = true ->
  (forall newStatus,
     recordStatusToFilterWith c <> Some newStatus ->
     let warned := step (mkSystem c waiting) (StatusFilterChanged newStatus) in
     let clicked := step warned (NotificationClicked (length (effects c))) in
     clicked = settle (applyStatusFilter newStatus (component warned)) waiting /\
     recordStatusToFilterWith (component clicked) = Some newStatus /\
     currentPage (component clicked) = Some one /\
     questionFormTouched (component clicked) = true /\
     step warned (NotificationClosed (length (effects c))) =
       mkSystem (emitResetStatusFilter (component warned)) waiting) /\
  (forall newSearchValue,
     newSearchValue <> Some (searchFilterFromQuery c) ->
     let warned :=
       step (mkSystem c waiting) (SearchFilterChanged newSearchValue) in
     let clicked := step warned (NotificationClicked (length (effects c))) in
     clicked =
       settle (applySearchFilter newSearchValue (component warned)) waiting /\
     searchTextToFilterWith (component clicked) = newSearchValue /\
     currentPage (component clicked) = Some one /\
     questionFormTouched (component clicked) = true /\
     step warned (NotificationClosed (length (effects c))) =
       mkSystem (emitResetSearchFilter (component warned)) waiting).
Proof.
  intros Ht. split.
  - intros newStatus Hs warned clicked. subst clicked warned.
    rewrite (touched_status_change_warns c waiting newStatus Ht Hs).
    unfold step, react. cbn [component suspended].
    rewrite !callback_of_the_last_notification.
    cbn [onClick onClose unsavedStatusWarning run_callback].
    repeat split; unfold applyStatusFilter, fetch; cbn;
      destruct (fetching c); cbn; unfold checkAndEmitTotalRecords; cbn;
      destruct (has_length (searchTextToFilterWith c)); cbn; auto.
  - intros newSearchValue Hs warned clicked. subst clicked warned.
    rewrite (touched_search_change_warns c waiting newSearchValue Ht Hs).
    unfold step, react. cbn [component suspended].
    rewrite !callback_of_the_last_notification.
    cbn [onClick onClose unsavedSearchWarning run_callback].
    repeat split; unfold applySearchFilter, fetch; cbn;
      destruct (fetching c); cbn; unfold checkAndEmitTotalRecords; cbn;
      destruct (has_length newSearchValue); cbn; auto.
Qed.

End ParentNotifications.

(** ** The empty queue message and the watchers *)

Lemma length_zero_is_empty (s : string) :
  Nat.eqb (String.length s) 0 = String.eqb s "".
Proof. destruct s; reflexivity. Qed.

Lemma string_app_inv_head (a s1 s2 : string) :
  (a ++ s1)%string = (a ++ s2)%string -> s1 = s2.
Proof.
  induction a as [|x a IH]; cbn; intros H; [exact H|].
  injection H as H. apply IH, H.
Qed.

Lemma string_param_inj (v w : option string) :
  string_param v = string_param w -> v = w.
Proof. destruct v, w; cbn; congruence. Qed.

Section ParentWatcherProperties.

Context {RT : Runtime} {VM : ViewModel}.

(** X11: the message of the empty queue and the [total-records] event
    read the search filter alike: the event carries the total exactly when
    the message speaks of the search input, and [null] exactly when it
    does not. *)
Theorem total_is_emitted_when_the_message_names_the_search (c : Component)
    (value : number) :
  (new_effects c (checkAndEmitTotalRecords (searchTextToFilterWith c) value c) =
     [RootEmitTotalRecords (Some value)] <->
   noRecordsMessage c =
     ("You have no " ++ template (recordStatusToFilterWith c)
        ++ " records matching the search input")%string) /\
  (new_effects c (checkAndEmitTotalRecords (searchTextToFilterWith c) value c) =
     [RootEmitTotalRecords None] <->
   noRecordsMessage c =
     ("You have no " ++ template (recordStatusToFilterWith c) ++ " records")%string).
Proof.
  unfold checkAndEmitTotalRecords, noRecordsMessage, has_length, new_effects.
  destruct (searchTextToFilterWith c) as [s|]; [rewrite length_zero_is_empty|];
    [destruct (String.eqb s "")|]; cbn; rewrite drop_app_one;
    (split; split; intros H; try reflexivity; try discriminate H);
    do 2 apply string_app_inv_head in H; discriminate H.
Qed.

(** X12: the location a watcher pushes keeps the path and every query
    parameter of the route other than [_page], [_status] and [_search]. *)
Theorem watchers_keep_the_other_parameters (path : string) (c : Component)
    (key : string) (newPage : option number) (newStatus newSearch : option string) :
  key <> "_page" -> key <> "_status" -> key <> "_search" ->
  locationQuery (watch_currentPage path newPage c) !! key =
    string_param <$> query c !! key /\
  locationQuery (watch_recordStatusToFilterWith path newStatus c) !! key =
    string_param <$> query c !! key /\
  locationQuery (watch_searchTextToFilterWith path newSearch c) !! key =
    string_param <$> query c !! key /\
  locationPath (watch_currentPage path newPage c) = path /\
  locationPath (watch_recordStatusToFilterWith path newStatus c) = path /\
  locationPath (watch_searchTextToFilterWith path newSearch c) = path.
Proof.
  intros Hp Hst Hse. unfold watch_currentPage, watch_recordStatusToFilterWith,
    watch_searchTextToFilterWith, spread. cbn.
  repeat split; rewrite !lookup_insert_ne by congruence; apply lookup_fmap.
Qed.

(** X13: the watchers of the two filters push the same location, the
    page, status and search of the component; the watcher of the page
    pushes it too exactly when the route already has the search filter of
    the component, for it leaves [_search] as the route has it. *)
Theorem filter_watchers_push_the_state (path : string) (c : Component) :
  watch_recordStatusToFilterWith path (recordStatusToFilterWith c) c =
    watch_searchTextToFilterWith path (searchTextToFilterWith c) c /\
  locationQuery (watch_recordStatusToFilterWith path (recordStatusToFilterWith c) c)
    !! "_page" = Some (number_param (currentPage c)) /\
  locationQuery (watch_recordStatusToFilterWith path (recordStatusToFilterWith c) c)
    !! "_status" = Some (string_param (recordStatusToFilterWith c)) /\
  locationQuery (watch_recordStatusToFilterWith path (recordStatusToFilterWith c) c)
    !! "_search" = Some (string_param (searchTextToFilterWith c)) /\
  (watch_currentPage path (currentPage c) c =
     watch_recordStatusToFilterWith path (recordStatusToFilterWith c) c <->
   query c !! "_search" = Some (searchTextToFilterWith c)).
Proof.
  unfold watch_currentPage, watch_recordStatusToFilterWith,
    watch_searchTextToFilterWith.
  split; [|split; [|split; [|split]]].
  - f_equal. f_equal. apply insert_insert_ne. discriminate.
  - cbn. apply lookup_insert_eq.
  - cbn. rewrite !lookup_insert_ne by discriminate. apply lookup_insert_eq.
  - cbn. rewrite lookup_insert_ne by discriminate. apply lookup_insert_eq.
  - split.
    + intros H. apply (f_equal (fun l => locationQuery l !! "_search")) in H.
      cbn in H. rewrite !lookup_insert_ne in H by discriminate.
      rewrite lookup_insert_eq in H. unfold spread in H.
      rewrite lookup_fmap in H.
      destruct (query c !! "_search") as [v|]; cbn in H; [|discriminate H].
      injection H as H. apply string_param_inj in H. congruence.
    + intros H. f_equal.
      rewrite (insert_insert_ne _ "_page" "_search") by discriminate.
      rewrite (insert_insert_ne _ "_page" "_status") by discriminate.
      rewrite (insert_insert_ne _ "_search" "_status") by discriminate.
      f_equal. symmetry. apply insert_id.
      rewrite lookup_insert_ne by discriminate.
      unfold spread. rewrite lookup_fmap, H. reflexivity.
Qed.

End ParentWatcherProperties.

(** ** The questions form, event by event *)

Section Tallies.

Context {A : Type} (p : A -> bool).

Lemma tally_app (l k : list A) : tally p (l ++ k) = tally p l + tally p k.
Proof.
  induction l as [|x l IH]; cbn; [reflexivity|]. rewrite IH.
  destruct (p x); lia.
Qed.

Lemma tally_delete (l : list A) (i : nat) (x : A) :
  l !! i = Some x ->
  tally p l = (if p x then 1 else 0) + tally p (delete i l).
Proof.
  revert i. induction l as [|y l IH]; intros [|i] H; try discriminate H.
  - injection H as ->. reflexivity.
  - change (delete (S i) (y :: l)) with (y :: delete i l).
    cbn in *. rewrite (IH i H). destruct (p x), (p y); lia.
Qed.

End Tallies.

Section FormSteps.

Context {FM : FormModel}.

Ltac unfold_form :=
  unfold form_step, form_settle, record_changed, flush_isFormTouched,
    watch_isFormTouched, watch_record, emitIsQuestionsFormTouched,
    onPressKeyboardShortCut, onSubmit, onDiscard, onClear,
    onSaveDraftImmediately, form_resume, destroyed,
    computed_questionAreCompletedCorrectly, new_form_effects in *.

(** X14: a key press acts exactly when it is one of the shortcuts,
    Ctrl or Cmd with S, Shift with Enter, Space or Backspace, save that
    Shift with Enter does nothing while the questions are not completed;
    any other key, and any key without its modifier, leaves the form as it
    is. *)
Theorem only_shortcuts_act (event : KeyboardEvent) (f : QuestionsForm) :
  onPressKeyboardShortCut event f = FormReturned f <->
  is_shortcut event = false \/
  (code event = "Enter" /\ shiftKey event = true /\
   questionAreCompletedCorrectly (record f) = false).
Proof.
  unfold onPressKeyboardShortCut, is_shortcut, onSubmit, onClear, onDiscard,
    onSaveDraftImmediately, computed_questionAreCompletedCorrectly.
  destruct event as [code shift ctrl meta]. cbn.
  destruct (questionAreCompletedCorrectly (record f)) eqn:Hq;
    destruct (String.eqb_spec code "KeyS") as [-> | HS];
    [| destruct (String.eqb_spec code "Enter") as [-> | HE];
       [| destruct (String.eqb_spec code "Space") as [-> | HSp];
          [| destruct (String.eqb_spec code "Backspace") as [-> | HB]]]
     | | destruct (String.eqb_spec code "Enter") as [-> | HE];
       [| destruct (String.eqb_spec code "Space") as [-> | HSp];
          [| destruct (String.eqb_spec code "Backspace") as [-> | HB]]]];
    destruct shift, ctrl, meta; cbn;
    (split; intros H;
     [ try discriminate H;
       first [left; reflexivity | right; repeat split; reflexivity]
     | try reflexivity;
       destruct H as [H | (H1 & H2 & H3)]; congruence ]).
Qed.

Lemma form_step_accounted (s : FormSystem) (e : FormEvent) :
  accounted s -> accounted (form_step s e).
Proof.
  destruct s as [f waiting]. unfold accounted. cbn [form formSuspended].
  intros [Hs Hd].
  destruct e as [r | event | | | | i]; unfold_form; cbn [form formSuspended].
  1-5: branch; rewrite ?tally_app; cbn; lia.
  destruct (waiting !! i) as [k|] eqn:Hk; cbn [form formSuspended]; [|lia].
  rewrite (tally_delete awaits_submit waiting i k Hk) in Hs.
  rewrite (tally_delete awaits_discard waiting i k Hk) in Hd.
  destruct k; cbn in *; rewrite ?tally_app; cbn; lia.
Qed.

Lemma form_boot_accounted (r : FeedbackRecord) : accounted (form_boot r).
Proof.
  unfold accounted, form_boot, form_setup, form_created, form_data.
  unfold_form. branch; auto.
Qed.

(** X15: [on-submit-responses] answers [submit], one for one, and
    [on-discard-responses] answers [discard]: in every run of the form the
    calls of [submit] are as many as the events emitted plus the calls
    still awaited, and likewise for [discard]; so neither event is ever
    emitted without its call, or twice for one call. *)
Theorem responses_answer_calls (r : FeedbackRecord) (events : list FormEvent) :
  accounted (form_steps (form_boot r) events).
Proof.
  generalize (form_boot_accounted r). generalize (form_boot r).
  induction events as [|e events IH]; intros s Hs; [exact Hs|].
  cbn. apply IH, form_step_accounted, Hs.
Qed.

Lemma form_step_state (s : FormSystem) (e : FormEvent) :
  record (form (form_step s e)) =
    match e with
    | RecordChanged r => r
    | _ => record (form s)
    end /\
  isFormTouched (form (form_step s e)) =
    match e with
    | RecordChanged r => isModified r
    | _ => isFormTouched (form s)
    end.
Proof.
  destruct s as [f waiting].
  destruct e; unfold_form; cbn [form formSuspended]; branch; auto.
Qed.

Lemma form_steps_in_step (events : list FormEvent) (s : FormSystem) :
  in_step (form s) -> in_step (form (form_steps s events)).
Proof.
  revert s. induction events as [|e events IH]; intros s Hs; [exact Hs|].
  cbn. apply IH. unfold in_step in *.
  destruct (form_step_state s e) as [Hr Ht]. rewrite Hr, Ht.
  destruct e; auto.
Qed.

(** X16: only a change of the record moves the record and
    [isFormTouched]: keys, buttons and resolved calls leave both alone.
    Hence, from the first change of the record on, [isFormTouched] tells
    at every moment whether the record is modified. *)
Theorem touched_follows_the_record (s : FormSystem) (e : FormEvent)
    (r : FeedbackRecord) (events : list FormEvent) :
  record (form (form_step s e)) =
    match e with
    | RecordChanged r' => r'
    | _ => record (form s)
    end /\
  isFormTouched (form (form_step s e)) =
    match e with
    | RecordChanged r' => isModified r'
    | _ => isFormTouched (form s)
    end /\
  in_step (form (form_steps s (RecordChanged r :: events))).
Proof.
  destruct (form_step_state s e) as [Hr Ht].
  split; [exact Hr|]. split; [exact Ht|].
  change (form_steps s (RecordChanged r :: events))
    with (form_steps (form_step s (RecordChanged r)) events).
  apply form_steps_in_step. unfold in_step.
  destruct (form_step_state s (RecordChanged r)) as [Hr' Ht'].
  rewrite Hr', Ht'. reflexivity.
Qed.

(** X17: the shortcut goes round the button.  For a submitted record
    that is complete and whose form is not touched the submit button is
    disabled, yet Shift with Enter calls [submit] on the record, for
    [onSubmit] looks at the questions only. *)
Theorem shortcut_submits_an_untouched_submitted_record (f : QuestionsForm)
    (ctrl meta : bool) :
  isSubmitted (record f) = true ->
  isFormTouched f = false ->
  questionAreCompletedCorrectly (record f) = true ->
  isSubmitButtonDisabled f = true /\
  onPressKeyboardShortCut (mkKeyboardEvent "Enter" true ctrl meta) f =
    FormAwaiting (form_perform (Submit (record f)) f) AwaitSubmit.
Proof.
  intros Hs Ht Hq.
  unfold isSubmitButtonDisabled, onPressKeyboardShortCut, onSubmit,
    computed_questionAreCompletedCorrectly.
  cbn. rewrite Hs, Ht, Hq. split; reflexivity.
Qed.

(** X18: the touched state the form emits is the state it is in.  A
    step emits [on-question-form-touched] only on a change of the record
    which turns [isFormTouched] over; the value emitted is the new
    [isFormTouched], that is whether the record is modified, and
    [are-responses-untouched] goes with it, carrying the opposite. *)
Theorem touched_event_tells_the_state (s : FormSystem) (e : FormEvent)
    (b : bool) :
  In (EmitOnQuestionFormTouched b)
    (new_form_effects (form s) (form (form_step s e))) ->
  (exists r, e = RecordChanged r /\ isModified r = b) /\
  isFormTouched (form s) = negb b /\
  isFormTouched (form (form_step s e)) = b /\
  In (RootEmitAreResponsesUntouched (negb b))
    (new_form_effects (form s) (form (form_step s e))).
Proof.
  destruct s as [f waiting].
  destruct e as [r | event | | | | i]; unfold_form; cbn [form formSuspended];
    branch; intros; members;
    try match goal with
      | H : isModified ?r = _ |- _ => rewrite H in *
      end;
    try match goal with
      | H : Bool.eqb _ _ = false |- _ => apply eqb_false_iff in H
      end;
    repeat split; cbn; eauto;
    try (destruct (isFormTouched f); cbn in *; congruence).
Qed.

(** X19: drafts are saved for modified records only.  A step calls
    [saveDraft] only on a change of the record into a modified one, and on
    that record; it calls [saveDraftImmediately] only on Ctrl or Cmd with
    S, on the record of the form. *)
Theorem drafts_are_saved_for_modified_records (s : FormSystem) (e : FormEvent)
    (r : FeedbackRecord) :
  (In (SaveDraft r) (new_form_effects (form s) (form (form_step s e))) ->
   e = RecordChanged r /\ isModified r = true) /\
  (In (SaveDraftImmediately r)
     (new_form_effects (form s) (form (form_step s e))) ->
   exists event,
     e = KeyDown event /\ code event = "KeyS" /\
     ctrlKey event || metaKey event = true /\
     r = record (form s)).
Proof.
  destruct s as [f waiting]. split.
  - destruct e as [r' | event | | | | i]; unfold_form; cbn [form formSuspended];
      branch; intros; members; auto.
  - destruct e as [r' | event | | | | i]; unfold_form; cbn [form formSuspended];
      branch; intros; members;
      (eexists; repeat split; eauto;
       [apply String.eqb_eq; assumption |]);
      match goal with
      | H : _ = true |- _ || _ = true => rewrite H; auto using orb_true_r
      end.
Qed.

End FormSteps.

(** ** The further properties at work on the sample instance *)

Lemma filter_change_resets_page_witness :
  currentPage
    (component (step sampleSystem (StatusFilterChanged "submitted"))) =
  Some one.
Proof.
  apply (filter_change_resets_page sampleSystem
           (StatusFilterChanged "submitted")).
  left. discriminate.
Defined.


Lemma notices_come_from_loads_ahead_witness :
  exists i loaded newPage,
    RecordsLoaded 0 firstPageOnly = RecordsLoaded i loaded /\
    suspended (step sampleSystem GoToNextPage) !! i =
      Some (SetCurrentPageLoad newPage) /\
    existsRecordOn loaded (Some newPage) = false /\
    PrimFloat.ltb
      (page_number (currentPage (component (step sampleSystem GoToNextPage))))
      newPage = true /\
    currentPage
      (component
         (step (step sampleSystem GoToNextPage)
            (RecordsLoaded 0 firstPageOnly))) =
      currentPage (component (step sampleSystem GoToNextPage)) /\
    noMoreDataNotice sampleComponent =
      noMoreDataNotice (component (step sampleSystem GoToNextPage)).
Proof.
  exact (notices_come_from_loads_ahead (step sampleSystem GoToNextPage)
           (RecordsLoaded 0 firstPageOnly) (noMoreDataNotice sampleComponent)
           (or_introl eq_refl) eq_refl).
Defined.

Lemma page_with_a_record_is_moved_to_witness :
  (exists c',
     setCurrentPage 1%float sampleComponent = Returned c' /\
     currentPage c' = Some 1%float /\
     records c' = records sampleComponent /\
     fetching c' = false /\
     new_effects sampleComponent c' = []) /\
  (exists c',
     complete [twoPages] (setCurrentPage 2%float sampleComponent) = Some c' /\
     currentPage c' = Some 2%float /\
     records c' = twoPages /\
     fetching c' = false /\
     new_effects sampleComponent c' =
       [LoadRecords (datasetId sampleComponent) (Some 2%float)
          (recordStatusToFilterWith sampleComponent)
          (searchTextToFilterWith sampleComponent)]).
Proof.
  split.
  - exact (proj1 (page_with_a_record_is_moved_to 1%float sampleComponent
                    twoPages eq_refl) eq_refl).
  - exact (proj2 (page_with_a_record_is_moved_to 2%float sampleComponent
                    twoPages eq_refl) eq_refl eq_refl).
Defined.

Lemma confirmed_warning_applies_the_filter_witness :
  recordStatusToFilterWith
    (component
       (step
          (step (mkSystem touchedComponent [])
             (StatusFilterChanged "submitted"))
          (NotificationClicked (length (effects touchedComponent))))) =
  Some "submitted".
Proof.
  destruct (confirmed_warning_applies_the_filter touchedComponent [] eq_refl)
    as [Hstatus _].
  destruct (Hstatus "submitted" ltac:(discriminate)) as (_ & Happlied & _).
  exact Happlied.
Defined.

Lemma watchers_keep_the_other_parameters_witness :
  locationQuery (watch_currentPage "/dataset" (Some 2%float) sampleComponent)
    !! "_sort" =
  string_param <$> query sampleComponent !! "_sort".
Proof.
  exact (proj1 (watchers_keep_the_other_parameters "/dataset" sampleComponent
                  "_sort" (Some 2%float) None None
                  ltac:(discriminate) ltac:(discriminate)
                  ltac:(discriminate))).
Defined.

Lemma shortcut_submits_an_untouched_submitted_record_witness :
  isSubmitButtonDisabled submittedForm = true /\
  onPressKeyboardShortCut (mkKeyboardEvent "Enter" true false false)
    submittedForm =
    FormAwaiting (form_perform (Submit (record submittedForm)) submittedForm)
      AwaitSubmit.
Proof.
  exact (shortcut_submits_an_untouched_submitted_record submittedForm
           false false eq_refl eq_refl eq_refl).
Defined.

Lemma touched_event_tells_the_state_witness :
  isFormTouched
    (form
       (form_step (mkFormSystem submittedForm [])
          (RecordChanged editedRecord))) = true.
Proof.
  destruct (touched_event_tells_the_state (mkFormSystem submittedForm [])
              (RecordChanged editedRecord) true
              (or_intror (or_introl eq_refl)))
    as (_ & _ & Hnow & _).
  exact Hnow.
Defined.

Lemma drafts_are_saved_for_modified_records_witness :
  RecordChanged incompleteRecord = RecordChanged incompleteRecord /\
  isModified incompleteRecord = true.
Proof.
  destruct (drafts_are_saved_for_modified_records
              (mkFormSystem completeForm []) (RecordChanged incompleteRecord)
              incompleteRecord)
    as [Hsaved _].
  exact (Hsaved (or_introl eq_refl)).
Defined.
